(** * enable_live_rule: a shallow embedding of samples/v1/enable_live_rule.py

    The sample validates a detection-rule identifier against a fixed regular
    expression, issues one POST through an authorized HTTP session, prints the
    body of an error response, lets the response raise for an error status and
    extracts the operation identifier from the decoded JSON body.

    Python [str] values are modelled as [string], a character beyond ASCII
    standing as its UTF-8 bytes: the only characters the code inspects are
    ASCII ones (the character class of the pattern and the separator [/]),
    and no byte of a longer sequence is one of them. *)

From Stdlib Require Import ZArith Ascii String List Lia.
From stdpp Require Import base gmap strings list.

Set Warnings "-register-all".
Open Scope string_scope.

(** ** Regular expressions: the fragment of Python's [re] the pattern uses *)

Module Re.

(** The syntax that [re.compile] builds for the pattern: literal characters,
    a character class given by its ranges, concatenation and the counted
    repetition [r{n}]. *)
Inductive regex : Type :=
  | Lit (c : ascii)
  | Class (ranges : list (ascii * ascii))
  | Cat (r1 r2 : regex)
  | Repeat (r : regex) (n : nat).

(** [lo-hi] inside a class: the code point lies between the two bounds. *)
Definition in_range (c : ascii) (rg : ascii * ascii) : bool :=
  (N_of_ascii (fst rg) <=? N_of_ascii c)%N && (N_of_ascii c <=? N_of_ascii (snd rg))%N.

Definition in_class (ranges : list (ascii * ascii)) (c : ascii) : bool :=
  existsb (in_range c) ranges.

(** One character taken from the front of the subject when [p] holds. *)
Definition eat (p : ascii -> bool) (s : string) : list string :=
  match s with
  | String a t => if p a then [t] else []
  | EmptyString => []
  end.

(** [n] successive matches of a sub-pattern. *)
Definition times (step : string -> list string) : nat -> string -> list string :=
  fix go (n : nat) (s : string) : list string :=
    match n with
    | O => [s]
    | S k => step s ≫= go k
    end.

(** [rests r s]: every way [r] can match at the start of [s], each given by
    what is left of the subject after the match (the engine's backtracking
    points). *)
Fixpoint rests (r : regex) (s : string) : list string :=
  match r with
  | Lit c => eat (Ascii.eqb c) s
  | Class ranges => eat (in_class ranges) s
  | Cat r1 r2 => rests r1 s ≫= rests r2
  | Repeat r' n => times (rests r') n s
  end.

(** [Pattern.fullmatch]: some match consumes the whole subject.  The result
    is the truth value of the match object ([None] when there is none). *)
Definition fullmatch (r : regex) (s : string) : bool :=
  existsb (String.eqb EmptyString) (rests r s).

(** The language of a pattern, for reasoning about [rests]. *)
Definition power (L : string -> Prop) : nat -> string -> Prop :=
  fix go (n : nat) (w : string) : Prop :=
    match n with
    | O => w = EmptyString
    | S k => exists w1 w2, w = w1 +:+ w2 /\ L w1 /\ go k w2
    end.

Fixpoint lang (r : regex) (w : string) : Prop :=
  match r with
  | Lit c => w = String c EmptyString
  | Class ranges => exists a, w = String a EmptyString /\ in_class ranges a = true
  | Cat r1 r2 => exists w1 w2, w = w1 +:+ w2 /\ lang r1 w1 /\ lang r2 w2
  | Repeat r' n => power (lang r') n w
  end.

(** [step] recognises [L] at the front of a subject. *)
Definition recognises (step : string -> list string) (L : string -> Prop) : Prop :=
  forall s t, t ∈ step s <-> exists w, s = w +:+ t /\ L w.

End Re.

Import Re.

Declare Scope regex_scope.
Delimit Scope regex_scope with re.
Bind Scope regex_scope with regex.
Infix "⋅" := Cat (at level 41, right associativity) : regex_scope.

(** ** The constants of the module *)

Definition CHRONICLE_API_BASE_URL : string := "https://backstory.googleapis.com".

(** [[a-fA-F0-9]] *)
Definition hex_class : regex := Class [("a", "f"); ("A", "F"); ("0", "9")]%char.

(** [ru_[a-fA-F0-9]{8}-[a-fA-F0-9]{4}-[a-fA-F0-9]{4}-[a-fA-F0-9]{4}-[a-fA-F0-9]{12}] *)
Definition RULE_ID_PATTERN : regex :=
  (Lit "r" ⋅ Lit "u" ⋅ Lit "_" ⋅ Repeat hex_class 8 ⋅ Lit "-" ⋅
   Repeat hex_class 4 ⋅ Lit "-" ⋅
   Repeat hex_class 4 ⋅ Lit "-" ⋅ Repeat hex_class 4 ⋅ Lit "-" ⋅ Repeat hex_class 12)%re.

(** ** Python values

    What [response.json()] can hand back: the decoded JSON document.  A JSON
    number is kept as its literal; only its type matters below. *)

Inductive pyvalue : Type :=
  | PyNone
  | PyBool (b : bool)
  | PyNumber (literal : string)
  | PyStr (s : string)
  | PyList (items : list pyvalue)
  | PyDict (entries : gmap string pyvalue).

(** ** The response object and the session

    The attributes of [requests.Response] that the function, or
    [raise_for_status] on its behalf, reads.  [json_body] is [None] when the
    body does not decode. *)

Record Response : Type := mkResponse {
  status_code : Z;
  reason : string;
  text : string;
  json_body : option pyvalue
}.

(** The session is an opaque collaborator: a request either comes back with a
    response or fails in the transport. *)
Record AuthorizedSession : Type := mkSession {
  session_request : string -> string -> string + Response
}.

(** ** Exceptions, effects and the monad they live in *)

Inductive exn : Type :=
  | ValueError (msg : string)
  | HTTPError (response : Response)
  | JSONDecodeError
  | TypeError
  | KeyError (key : string)
  | AttributeError (attr : string)
  | IndexError
  | TransportError (detail : string).

(** What the function does to the outside world, in order. *)
Inductive event : Type :=
  | Request (method url : string)
  | Print (line : string).

Inductive outcome (A : Type) : Type :=
  | Return (a : A)
  | Raise (e : exn).
Arguments Return {A} a.
Arguments Raise {A} e.

(** A computation: the events it emitted and how it ended. *)
Definition M (A : Type) : Type := (list event * outcome A)%type.

#[export] Instance M_ret : MRet M := fun A a => ([], Return a).

#[export] Instance M_bind : MBind M := fun A B f m =>
  match m with
  | (t, Return a) => let '(t', o) := f a in ((t ++ t')%list, o)
  | (t, Raise e) => (t, Raise e)
  end.

Definition raise {A : Type} (e : exn) : M A := ([], Raise e).

Definition trace {A : Type} (m : M A) : list event := fst m.
Definition result {A : Type} (m : M A) : outcome A := snd m.

(** [http_session.request(method, url)] *)
Definition request (http_session : AuthorizedSession) (method url : string) : M Response :=
  ([Request method url],
   match session_request http_session method url with
   | inl detail => Raise (TransportError detail)
   | inr response => Return response
   end).

(** [print(line)] *)
Definition print (line : string) : M unit := ([Print line], Return tt).

(** [Response.raise_for_status] of the requests library: a client error for
    400 <= status < 500, a server error for 500 <= status < 600, nothing
    otherwise.  The exception keeps the response ([response=self]). *)
Definition raise_for_status (response : Response) : M unit :=
  if (400 <=? status_code response)%Z && (status_code response <? 500)%Z then
    raise (HTTPError response)
  else if (500 <=? status_code response)%Z && (status_code response <? 600)%Z then
    raise (HTTPError response)
  else mret tt.

(** [response.json()] *)
Definition json (response : Response) : M pyvalue :=
  match json_body response with
  | Some v => mret v
  | None => raise JSONDecodeError
  end.

(** [v[key]] for a [str] key: a lookup in a dict, a [TypeError] on anything
    else (a list or a string wants an integer, the others are not
    subscriptable). *)
Definition getitem (v : pyvalue) (key : string) : M pyvalue :=
  match v with
  | PyDict entries =>
      match entries !! key with
      | Some x => mret x
      | None => raise (KeyError key)
      end
  | _ => raise TypeError
  end.

(** [str.split(sep)] for a one-character separator: the pieces between the
    occurrences of [sep], never an empty list. *)
Fixpoint str_split (sep : ascii) (s : string) : list string :=
  match s with
  | EmptyString => [EmptyString]
  | String c t =>
      if Ascii.eqb c sep then EmptyString :: str_split sep t
      else match str_split sep t with
           | piece :: pieces => String c piece :: pieces
           | [] => [String c EmptyString]
           end
  end.

(** [v.split(sep)]: only [str] has the method. *)
Definition split (v : pyvalue) (sep : ascii) : M (list string) :=
  match v with
  | PyStr s => mret (str_split sep s)
  | _ => raise (AttributeError "split")
  end.

(** [l[i]] on a list, for a non-negative [i]. *)
Definition getindex {A : Type} (l : list A) (i : nat) : M A :=
  match l !! i with
  | Some x => mret x
  | None => raise IndexError
  end.

(** ** The function *)

Definition enable_live_rule (http_session : AuthorizedSession) (rule_id : string)
  : M string :=
  if negb (fullmatch RULE_ID_PATTERN rule_id) then
    raise (ValueError ("Invalid detection rule ID: '" +:+ rule_id +:+ "' != 'ru_<UUID>'."))
  else
    let url := CHRONICLE_API_BASE_URL +:+ "/v1/rules/" +:+ rule_id +:+ ":enableLiveRule" in
    response ← request http_session "POST" url;
    (if (400 <=? status_code response)%Z then print (text response) else mret tt);;
    raise_for_status response;;
    body ← json response;
    name ← getitem body "name";
    parts ← split name "/";
    getindex parts 1.

(** The return expression, [response.json()["name"].split("/")[1]], on its
    own. *)
Definition operation_id_of (response : Response) : M string :=
  body ← json response;
  name ← getitem body "name";
  parts ← split name "/";
  getindex parts 1.

(** What [enable_live_rule] does with the response once it has one. *)
Definition after_request (response : Response) : M string :=
  (if (400 <=? status_code response)%Z then print (text response) else mret tt);;
  raise_for_status response;;
  operation_id_of response.

(** The requests of a trace, and the lines it printed. *)
Definition calls (t : list event) : list (string * string) :=
  omap (fun e => match e with Request m u => Some (m, u) | Print _ => None end) t.

Definition prints (t : list event) : list string :=
  omap (fun e => match e with Print l => Some l | Request _ _ => None end) t.

(** ** Vocabulary of the design document *)

(** The endpoint template, [<base>/v1/rules/<ruleIdentifier>:enableLiveRule]. *)
Definition endpoint (base rule_id : string) : string :=
  base +:+ "/v1/rules/" +:+ rule_id +:+ ":enableLiveRule".


(** A hexadecimal digit, in either case. *)
Definition is_hex (c : ascii) : bool :=
  existsb (Ascii.eqb c) (list_ascii_of_string "0123456789abcdefABCDEF").

(** A group of exactly [n] hexadecimal digits. *)
Definition hex_group (n : nat) (g : string) : Prop :=
  String.length g = n /\ forallb is_hex (list_ascii_of_string g) = true.

(** The 8-4-4-4-12 grouping of a UUID, hyphens between the groups. *)
Definition uuid_shape (u : string) : Prop :=
  exists g1 g2 g3 g4 g5 : string,
    hex_group 8 g1 /\ hex_group 4 g2 /\ hex_group 4 g3 /\ hex_group 4 g4 /\
    hex_group 12 g5 /\
    u = g1 +:+ "-" +:+ g2 +:+ "-" +:+ g3 +:+ "-" +:+ g4 +:+ "-" +:+ g5.

(** RuleIdentifier: [ru_<UUID>], the whole string and nothing around it. *)
Definition rule_id_shape (s : string) : Prop :=
  exists u : string, uuid_shape u /\ s = "ru_" +:+ u.

(** OperationIdentifier: [rulejob_jo_<UUID>]. *)
Definition operation_id_shape (s : string) : Prop :=
  exists u : string, uuid_shape u /\ s = "rulejob_jo_" +:+ u.

(** The error kinds the design names.  The module defines no exception class
    of its own: a kind stands for the Python exception that carries it, and
    the lookup errors of the last line of the function belong to none of
    them. *)
Inductive error_kind : Type :=
  | InvalidArgument
  | HttpError
  | MalformedResponse
  | TransportFailure
  | LowLevelError.

Definition kind_of (e : exn) : error_kind :=
  match e with
  | ValueError _ => InvalidArgument
  | HTTPError _ => HttpError
  | TransportError _ => TransportFailure
  | JSONDecodeError | TypeError | KeyError _ | AttributeError _ | IndexError =>
      LowLevelError
  end.

(** The Python class of an exception. *)
Definition exn_name (e : exn) : string :=
  match e with
  | ValueError _ => "ValueError"
  | HTTPError _ => "HTTPError"
  | JSONDecodeError => "JSONDecodeError"
  | TypeError => "TypeError"
  | KeyError _ => "KeyError"
  | AttributeError _ => "AttributeError"
  | IndexError => "IndexError"
  | TransportError _ => "TransportError"
  end.

(** Two runs end alike: the same value, or an exception of the same class. *)
Definition same_ending {A : Type} (o1 o2 : outcome A) : Prop :=
  match o1, o2 with
  | Return a1, Return a2 => a1 = a2
  | Raise e1, Raise e2 => exn_name e1 = exn_name e2
  | _, _ => False
  end.

(** [sep] does not occur in [s]. *)
Definition lacks (sep : ascii) (s : string) : Prop :=
  forallb (fun c => negb (Ascii.eqb c sep)) (list_ascii_of_string s) = true.

(** What follows the first [sep] of [s], when there is one. *)
Fixpoint after (sep : ascii) (s : string) : option string :=
  match s with
  | EmptyString => None
  | String c t => if Ascii.eqb c sep then Some t else after sep t
  end.

(** What precedes the first [sep] of [s]; all of [s] when there is none. *)
Fixpoint upto (sep : ascii) (s : string) : string :=
  match s with
  | EmptyString => EmptyString
  | String c t => if Ascii.eqb c sep then EmptyString else String c (upto sep t)
  end.

(** ** Test doubles *)

(** A session that answers every request with [response]. *)
Definition session_returning (response : Response) : AuthorizedSession :=
  {| session_request := fun _ _ => inr response |}.

(** A session whose transport always fails. *)
Definition session_failing (detail : string) : AuthorizedSession :=
  {| session_request := fun _ _ => inl detail |}.

(** A response whose body decodes to [{"name": name}]. *)
Definition named_response (status : Z) (body name : string) : Response :=
  {| status_code := status; reason := "";
     text := body; json_body := Some (PyDict {[ "name" := PyStr name ]}) |}.

Definition sample_rule_id : string := "ru_12345678-1234-1234-1234-123456789abc".

(** The double quote, for bodies that contain one. *)
Definition dquote : string := String "034" "".

(** The body [{"error": "not found"}]. *)
Definition not_found_body : string :=
  "{" +:+ dquote +:+ "error" +:+ dquote +:+ ": " +:+ dquote +:+ "not found" +:+ dquote +:+ "}".

(** ** The script

    The [__main__] block from the call on.  The parsed [args.rule_id] and the
    session that [chronicle_auth] builds from the credentials file are taken
    as given. *)
Definition main (session : AuthorizedSession) (rule_id : string) : M unit :=
  operation_id ← enable_live_rule session rule_id;
  print operation_id.

(** ** More vocabulary *)

(** [sep.join(pieces)], the inverse that [str.split] is documented against. *)
Fixpoint str_join (sep : ascii) (pieces : list string) : string :=
  match pieces with
  | [] => EmptyString
  | [piece] => piece
  | piece :: (_ :: _) as rest => piece +:+ String sep (str_join sep rest)
  end.

(** The number of occurrences of [sep] in [s]. *)
Fixpoint occurrences (sep : ascii) (s : string) : nat :=
  match s with
  | EmptyString => 0
  | String c t => (if Ascii.eqb c sep then 1 else 0) + occurrences sep t
  end.

(** The characters a rule identifier is made of. *)
Definition is_rule_id_char (c : ascii) : bool :=
  is_hex c || existsb (Ascii.eqb c) (list_ascii_of_string "ru_-").

(** ** Proof steps *)

(** One step through a concatenation whose head is a literal, or a group of
    hexadecimal digits. *)
Ltac literal :=
  eexists _, _; split; [|split; [reflexivity|]]; [reflexivity|].
Ltac group :=
  eexists _, _; split; [reflexivity|split; [eassumption|]].

(** * Properties *)

(** ** Strings *)

Lemma append_cons (a : ascii) (s t : string) :
  String a s +:+ t = String a (s +:+ t).
Proof. reflexivity. Qed.

Lemma append_nil_r (s : string) : s +:+ "" = s.
Proof. induction s as [|a s IH]; [done|]. by rewrite append_cons, IH. Qed.

Lemma append_assoc (s t u : string) : (s +:+ t) +:+ u = s +:+ (t +:+ u).
Proof. induction s as [|a s IH]; [done|]. by rewrite !append_cons, IH. Qed.

Lemma length_append (s t : string) :
  String.length (s +:+ t) = String.length s + String.length t.
Proof. induction s as [|a s IH]; [done|]. rewrite append_cons. cbn. by rewrite IH. Qed.

Lemma list_ascii_append (s t : string) :
  list_ascii_of_string (s +:+ t) = (list_ascii_of_string s ++ list_ascii_of_string t)%list.
Proof. induction s as [|a s IH]; [done|]. rewrite append_cons. cbn. by rewrite IH. Qed.

(** ** The matcher computes the language of the pattern *)

Section Matching.

Lemma elem_of_eat (p : ascii -> bool) (s t : string) :
  t ∈ eat p s <-> exists a, s = String a t /\ p a = true.
Proof.
  destruct s as [|a s']; simpl.
  - split; [intros H; inversion H | intros (a & H & _); discriminate].
  - destruct (p a) eqn:Hp.
    + rewrite list_elem_of_singleton. split.
      * intros ->. eauto.
      * intros (b & Hb & _). by injection Hb.
    + split; [intros H; inversion H |].
      intros (b & Hb & Hpb). injection Hb as -> ->. congruence.
Qed.

Lemma times_recognises step L (n : nat) :
  recognises step L -> recognises (times step n) (power L n).
Proof.
  intros Hstep. induction n as [|n IH]; intros s t; simpl.
  - rewrite list_elem_of_singleton. split.
    + intros ->. by exists "".
    + by intros (w & -> & ->).
  - rewrite list_elem_of_bind. split.
    + intros (u & Ht & Hu).
      apply Hstep in Hu as (w1 & -> & Hw1).
      apply IH in Ht as (w2 & -> & Hw2).
      exists (w1 +:+ w2). split; [by rewrite append_assoc|].
      by exists w1, w2.
    + intros (w & -> & w1 & w2 & -> & Hw1 & Hw2).
      exists (w2 +:+ t). split.
      * apply IH. eauto.
      * apply Hstep. exists w1. by rewrite append_assoc.
Qed.

Lemma rests_recognises (r : regex) : recognises (rests r) (lang r).
Proof.
  induction r as [c|ranges|r1 IH1 r2 IH2|r IH n]; simpl.
  - intros s t. rewrite elem_of_eat. split.
    + intros (a & -> & Ha). apply Ascii.eqb_eq in Ha as ->.
      by exists (String a "").
    + intros (w & -> & ->). exists c. split; [done|]. apply Ascii.eqb_refl.
  - intros s t. rewrite elem_of_eat. split.
    + intros (a & -> & Ha). exists (String a ""). split; [done|]. by exists a.
    + intros (w & -> & a & -> & Ha). by exists a.
  - intros s t. rewrite list_elem_of_bind. split.
    + intros (u & Ht & Hu).
      apply IH1 in Hu as (w1 & -> & Hw1).
      apply IH2 in Ht as (w2 & -> & Hw2).
      exists (w1 +:+ w2). split; [by rewrite append_assoc|].
      by exists w1, w2.
    + intros (w & -> & w1 & w2 & -> & Hw1 & Hw2).
      exists (w2 +:+ t). split.
      * apply IH2. eauto.
      * apply IH1. exists w1. by rewrite append_assoc.
  - by apply times_recognises.
Qed.

Lemma fullmatch_lang (r : regex) (s : string) :
  fullmatch r s = true <-> lang r s.
Proof.
  unfold fullmatch. rewrite existsb_exists. split.
  - intros (t & Ht & Heq). apply String.eqb_eq in Heq as <-.
    apply list_elem_of_In, rests_recognises in Ht as (w & -> & Hw).
    by rewrite append_nil_r.
  - intros Hs. exists "". split; [|done].
    apply list_elem_of_In, rests_recognises. exists s.
    split; [symmetry; apply append_nil_r | done].
Qed.

End Matching.

(** ** The pattern describes the documented shape *)

Lemma hex_class_is_hex (a : ascii) :
  in_class [("a", "f"); ("A", "F"); ("0", "9")]%char a = is_hex a.
Proof. by destruct a as [[] [] [] [] [] [] [] []]. Qed.

Lemma lang_hex_class (w : string) :
  lang hex_class w <-> exists a, w = String a "" /\ is_hex a = true.
Proof.
  split; intros (a & -> & Ha); exists a; (split; [done|]).
  - by rewrite <- hex_class_is_hex.
  - by rewrite hex_class_is_hex.
Qed.

Lemma power_hex_group (n : nat) (w : string) :
  power (lang hex_class) n w <-> hex_group n w.
Proof.
  revert w. induction n as [|n IH]; intros w.
  - split.
    + by intros ->.
    + intros [Hlen _]. by destruct w.
  - change (power (lang hex_class) (S n) w) with
      (exists w1 w2, w = w1 +:+ w2 /\ lang hex_class w1 /\ power (lang hex_class) n w2).
    split.
    + intros (w1 & w2 & -> & (a & -> & Ha)%lang_hex_class & Hw2).
      apply IH in Hw2 as [Hlen Hall].
      change (String a "" +:+ w2) with (String a w2).
      split; cbn [String.length list_ascii_of_string forallb];
        [by rewrite Hlen | by rewrite Ha, Hall].
    + intros [Hlen Hall]. destruct w as [|a w]; [done|].
      cbn [String.length list_ascii_of_string forallb] in Hlen, Hall.
      apply andb_true_iff in Hall as [Ha Hall].
      exists (String a ""), w. split; [done|]. split.
      * apply lang_hex_class. by exists a.
      * apply IH. split; [lia | done].
Qed.

Lemma lang_rule_id (s : string) : lang RULE_ID_PATTERN s <-> rule_id_shape s.
Proof.
  unfold RULE_ID_PATTERN, rule_id_shape, uuid_shape. cbn [lang].
  split.
  - intros (? & ? & -> & -> & ? & ? & -> & -> & ? & ? & -> & -> &
            g1 & ? & -> & H1%power_hex_group & ? & ? & -> & -> &
            g2 & ? & -> & H2%power_hex_group & ? & ? & -> & -> &
            g3 & ? & -> & H3%power_hex_group & ? & ? & -> & -> &
            g4 & ? & -> & H4%power_hex_group & ? & g5 & -> & -> &
            H5%power_hex_group).
    exists (g1 +:+ "-" +:+ g2 +:+ "-" +:+ g3 +:+ "-" +:+ g4 +:+ "-" +:+ g5).
    split; [|reflexivity]. by exists g1, g2, g3, g4, g5.
  - intros (u & (g1 & g2 & g3 & g4 & g5 & H1 & H2 & H3 & H4 & H5 & ->) & ->).
    apply power_hex_group in H1, H2, H3, H4, H5.
    change ("ru_" +:+ ?x) with ("r" +:+ "u" +:+ "_" +:+ x).
    do 3 literal. group. literal. group. literal. group. literal. group. literal.
    assumption.
Qed.

(** Validation as the function performs it, against the documented shape. *)
Lemma fullmatch_rule_id (s : string) :
  fullmatch RULE_ID_PATTERN s = true <-> rule_id_shape s.
Proof. rewrite fullmatch_lang. apply lang_rule_id. Qed.

Lemma fullmatch_rule_id_false (s : string) :
  fullmatch RULE_ID_PATTERN s = false <-> ~ rule_id_shape s.
Proof.
  rewrite <- fullmatch_rule_id. destruct (fullmatch RULE_ID_PATTERN s); split; congruence.
Qed.

(** ** Splitting on a separator *)

Lemma str_split_unfold (sep : ascii) (s : string) :
  str_split sep s =
    upto sep s :: match after sep s with
                  | Some b => str_split sep b
                  | None => []
                  end.
Proof.
  induction s as [|c t IH]; [done|].
  cbn [str_split upto after]. destruct (Ascii.eqb c sep); [done|].
  by rewrite IH.
Qed.

(** The piece at index 1 is what lies between the first separator and the
    next one. *)
Lemma str_split_second (sep : ascii) (s : string) :
  str_split sep s !! 1 = upto sep <$> after sep s.
Proof.
  rewrite str_split_unfold. destruct (after sep s) as [b|]; [|done].
  by rewrite (str_split_unfold sep b).
Qed.

Lemma after_None (sep : ascii) (s : string) :
  after sep s = None <-> lacks sep s.
Proof.
  unfold lacks. induction s as [|c t IH]; [done|].
  cbn [after list_ascii_of_string forallb].
  destruct (Ascii.eqb c sep); cbn [negb andb]; [split; discriminate | done].
Qed.

Lemma after_Some (sep : ascii) (s b : string) :
  after sep s = Some b <-> exists a, lacks sep a /\ s = a +:+ String sep b.
Proof.
  unfold lacks. revert b. induction s as [|c t IH]; intros b.
  - split; [discriminate|]. intros ([|??] & _ & ?); discriminate.
  - cbn [after]. destruct (Ascii.eqb_spec c sep) as [->|Hne].
    + split.
      * intros [= ->]. by exists "".
      * intros ([|c' a] & Ha & Heq).
        -- by injection Heq as ->.
        -- rewrite append_cons in Heq. injection Heq as <- _.
           cbn [list_ascii_of_string forallb] in Ha.
           by rewrite Ascii.eqb_refl in Ha.
    + rewrite IH. split.
      * intros (a & Ha & ->). exists (String c a). split; [|done].
        cbn [list_ascii_of_string forallb].
        apply Ascii.eqb_neq in Hne. by rewrite Hne.
      * intros ([|c' a] & Ha & Heq).
        -- injection Heq as -> _. done.
        -- rewrite append_cons in Heq. injection Heq as -> ->.
           cbn [list_ascii_of_string forallb] in Ha.
           apply andb_true_iff in Ha as [_ Ha]. by exists a.
Qed.

Lemma upto_lacks (sep : ascii) (s : string) : lacks sep s -> upto sep s = s.
Proof.
  unfold lacks. induction s as [|c t IH]; [done|].
  cbn [upto list_ascii_of_string forallb]. intros [Hc Ht]%andb_true_iff.
  destruct (Ascii.eqb c sep); [done|]. by rewrite IH.
Qed.

Lemma str_split_lacks (sep : ascii) (s : string) :
  lacks sep s -> str_split sep s = [s].
Proof.
  intros Hs. rewrite str_split_unfold, upto_lacks by done.
  by apply after_None in Hs as ->.
Qed.

(** ** The function, one step at a time *)

Lemma getindex_second (l : list string) :
  getindex l 1 = ([], match l !! 1 with
                      | Some x => Return x
                      | None => Raise IndexError
                      end).
Proof. unfold getindex. by destruct (l !! 1). Qed.

(** Reading the operation identifier emits nothing. *)
Lemma operation_id_of_silent (r : Response) : trace (operation_id_of r) = [].
Proof.
  unfold operation_id_of, json. destruct (json_body r) as [body|]; [|done].
  destruct body as [| | | |?|entries]; try done.
  cbn. destruct (entries !! "name") as [name|]; [|done].
  destruct name; try done.
  cbn. by destruct (str_split "/" s) as [|? [|? ?]].
Qed.

Lemma operation_id_of_pieces (r : Response) (entries : gmap string pyvalue)
    (name : string) :
  json_body r = Some (PyDict entries) ->
  entries !! "name" = Some (PyStr name) ->
  operation_id_of r =
    ([], match str_split "/" name !! 1 with
         | Some piece => Return piece
         | None => Raise IndexError
         end).
Proof.
  intros Hjson Hname. unfold operation_id_of, json. rewrite Hjson.
  cbn. rewrite Hname. cbn.
  rewrite getindex_second. by destruct (str_split "/" name !! 1).
Qed.

Lemma operation_id_of_named (r : Response) (entries : gmap string pyvalue)
    (name : string) :
  json_body r = Some (PyDict entries) ->
  entries !! "name" = Some (PyStr name) ->
  operation_id_of r =
    ([], match after "/" name with
         | Some b => Return (upto "/" b)
         | None => Raise IndexError
         end).
Proof.
  intros Hjson Hname.
  rewrite (operation_id_of_pieces r entries name), str_split_second by done.
  by destruct (after "/" name).
Qed.

Lemma operation_id_of_unnamed (r : Response) (entries : gmap string pyvalue) :
  json_body r = Some (PyDict entries) ->
  entries !! "name" = None ->
  operation_id_of r = ([], Raise (KeyError "name")).
Proof.
  intros Hjson Hname. unfold operation_id_of, json. rewrite Hjson.
  cbn. by rewrite Hname.
Qed.

Lemma after_request_success (r : Response) :
  (status_code r < 400)%Z ->
  after_request r = ([], result (operation_id_of r)).
Proof.
  intros Hs. pose proof (operation_id_of_silent r) as Ht.
  unfold after_request, raise_for_status.
  destruct (Z.leb_spec 400 (status_code r)); [lia|].
  destruct (Z.leb_spec 500 (status_code r)); [lia|].
  cbn. destruct (operation_id_of r) as [t o]. cbn in Ht. by subst t.
Qed.

Lemma after_request_error (r : Response) :
  (400 <= status_code r < 600)%Z ->
  after_request r = ([Print (text r)], Raise (HTTPError r)).
Proof.
  intros Hs. unfold after_request, raise_for_status.
  destruct (Z.leb_spec 400 (status_code r)); [|lia].
  destruct (Z.ltb_spec (status_code r) 500); [done|].
  destruct (Z.leb_spec 500 (status_code r)); [|lia].
  destruct (Z.ltb_spec (status_code r) 600); [done|lia].
Qed.

Lemma after_request_beyond (r : Response) :
  (600 <= status_code r)%Z ->
  after_request r = ([Print (text r)], result (operation_id_of r)).
Proof.
  intros Hs. pose proof (operation_id_of_silent r) as Ht.
  unfold after_request, raise_for_status.
  destruct (Z.leb_spec 400 (status_code r)); [|lia].
  destruct (Z.ltb_spec (status_code r) 500); [lia|].
  destruct (Z.leb_spec 500 (status_code r)); [|lia].
  destruct (Z.ltb_spec (status_code r) 600); [lia|].
  cbn. destruct (operation_id_of r) as [t o]. cbn in Ht. by subst t.
Qed.

Lemma enable_live_rule_invalid (http_session : AuthorizedSession) (rule_id : string) :
  fullmatch RULE_ID_PATTERN rule_id = false ->
  enable_live_rule http_session rule_id =
    ([], Raise (ValueError
                  ("Invalid detection rule ID: '" +:+ rule_id +:+ "' != 'ru_<UUID>'."))).
Proof. intros H. unfold enable_live_rule. by rewrite H. Qed.

Lemma enable_live_rule_valid (http_session : AuthorizedSession) (rule_id : string) :
  fullmatch RULE_ID_PATTERN rule_id = true ->
  enable_live_rule http_session rule_id =
    request http_session "POST" (endpoint CHRONICLE_API_BASE_URL rule_id)
      ≫= after_request.
Proof. intros H. unfold enable_live_rule. by rewrite H. Qed.

Lemma enable_live_rule_transport (http_session : AuthorizedSession)
    (rule_id detail : string) :
  fullmatch RULE_ID_PATTERN rule_id = true ->
  session_request http_session "POST" (endpoint CHRONICLE_API_BASE_URL rule_id)
    = inl detail ->
  enable_live_rule http_session rule_id =
    ([Request "POST" (endpoint CHRONICLE_API_BASE_URL rule_id)],
     Raise (TransportError detail)).
Proof.
  intros H Hreq. rewrite enable_live_rule_valid by done.
  unfold request, mbind, M_bind. by rewrite Hreq.
Qed.

Lemma enable_live_rule_response (http_session : AuthorizedSession)
    (rule_id : string) (r : Response) :
  fullmatch RULE_ID_PATTERN rule_id = true ->
  session_request http_session "POST" (endpoint CHRONICLE_API_BASE_URL rule_id)
    = inr r ->
  enable_live_rule http_session rule_id =
    (Request "POST" (endpoint CHRONICLE_API_BASE_URL rule_id) :: trace (after_request r),
     result (after_request r)).
Proof.
  intros H Hreq. rewrite enable_live_rule_valid by done.
  unfold request, mbind, M_bind. rewrite Hreq.
  by destruct (after_request r).
Qed.

(** The exceptions of the return expression are Python's own lookup and
    decoding errors. *)
Lemma operation_id_of_raises (r : Response) (e : exn) :
  result (operation_id_of r) = Raise e -> kind_of e = LowLevelError.
Proof.
  unfold operation_id_of, json.
  destruct (json_body r) as [body|]; [|by intros [= <-]].
  destruct body as [| | | |?|entries]; try by intros [= <-].
  cbn. destruct (entries !! "name") as [name|]; [|by intros [= <-]].
  destruct name; try by intros [= <-].
  cbn. rewrite getindex_second.
  destruct (str_split "/" s !! 1); cbn; [discriminate | by intros [= <-]].
Qed.

(** The three ranges of the status code. *)
Lemma after_request_cases (r : Response) :
  ((status_code r < 400)%Z /\
     after_request r = ([], result (operation_id_of r))) \/
  ((400 <= status_code r < 600)%Z /\
     after_request r = ([Print (text r)], Raise (HTTPError r))) \/
  ((600 <= status_code r)%Z /\
     after_request r = ([Print (text r)], result (operation_id_of r))).
Proof.
  destruct (Z_lt_le_dec (status_code r) 400) as [Hlo|Hlo].
  - left. split; [done|]. by apply after_request_success.
  - destruct (Z_lt_le_dec (status_code r) 600) as [Hhi|Hhi].
    + right; left. split; [lia|]. apply after_request_error. lia.
    + right; right. split; [done|]. by apply after_request_beyond.
Qed.

Lemma after_request_raises (r : Response) (e : exn) :
  result (after_request r) = Raise e ->
  (e = HTTPError r /\ (400 <= status_code r < 600)%Z) \/ kind_of e = LowLevelError.
Proof.
  destruct (after_request_cases r) as [[_ ->]|[[Hs ->]|[_ ->]]]; cbn.
  - intros He. right. by eapply operation_id_of_raises.
  - intros [= <-]. by left.
  - intros He. right. by eapply operation_id_of_raises.
Qed.

(** ** The claims *)

(** C1. [enable_live_rule] accepts [s] exactly when the whole of [s] is
    [ru_] followed by hexadecimal groups of 8, 4, 4, 4 and 12 digits (either
    case) with hyphens between them.  Any other [s] fails with a
    [ValueError], the InvalidArgument kind, whose message carries [s] and the
    expected shape, and no request is issued. *)
Theorem C1_rule_id_validation (http_session : AuthorizedSession) (s : string) :
  (fullmatch RULE_ID_PATTERN s = true <-> rule_id_shape s) /\
  (rule_id_shape s <->
     forall msg, result (enable_live_rule http_session s) <> Raise (ValueError msg)) /\
  (~ rule_id_shape s ->
     enable_live_rule http_session s =
       ([], Raise (ValueError
                     ("Invalid detection rule ID: '" +:+ s +:+ "' != 'ru_<UUID>'.")))
     /\ forall e, result (enable_live_rule http_session s) = Raise e ->
                  kind_of e = InvalidArgument).
Proof.
  split; [apply fullmatch_rule_id|]. split.
  - split.
    + intros Hs%fullmatch_rule_id msg.
      destruct (session_request http_session "POST"
                  (endpoint CHRONICLE_API_BASE_URL s)) as [detail|r] eqn:Hreq.
      * by rewrite (enable_live_rule_transport _ _ detail).
      * rewrite (enable_live_rule_response _ _ r) by done. cbn.
        intros [[? _]|?]%after_request_raises; done.
    + intros Hok. apply fullmatch_rule_id.
      destruct (fullmatch RULE_ID_PATTERN s) eqn:Hm; [done|].
      exfalso. eapply Hok. by rewrite enable_live_rule_invalid.
  - intros Hs%fullmatch_rule_id_false.
    rewrite enable_live_rule_invalid by done.
    split; [done|]. by intros e [= <-].
Qed.

Lemma C1_rule_id_validation_witness :
  ~ rule_id_shape " ru_12345678-1234-1234-1234-123456789abc" /\
  enable_live_rule (session_failing "unreachable")
      " ru_12345678-1234-1234-1234-123456789abc" =
    ([], Raise (ValueError
       "Invalid detection rule ID: ' ru_12345678-1234-1234-1234-123456789abc' != 'ru_<UUID>'.")).
Proof.
  assert (~ rule_id_shape " ru_12345678-1234-1234-1234-123456789abc") as Hs.
  { apply fullmatch_rule_id_false. reflexivity. }
  split; [exact Hs|].
  exact (proj1 (proj2 (proj2 (C1_rule_id_validation
                                (session_failing "unreachable") _)) Hs)).
Defined.

(** C5. For a validated identifier the one request goes, as a POST, to the
    base URL followed by [/v1/rules/], the identifier and [:enableLiveRule]. *)
Theorem C5_request_url (http_session : AuthorizedSession) (rule_id : string) :
  fullmatch RULE_ID_PATTERN rule_id = true ->
  calls (trace (enable_live_rule http_session rule_id)) =
    [("POST", CHRONICLE_API_BASE_URL +:+ "/v1/rules/" +:+ rule_id +:+ ":enableLiveRule")].
Proof.
  intros Hm.
  destruct (session_request http_session "POST"
              (endpoint CHRONICLE_API_BASE_URL rule_id)) as [detail|r] eqn:Hreq.
  - by rewrite (enable_live_rule_transport _ _ detail).
  - rewrite (enable_live_rule_response _ _ r) by done.
    by destruct (after_request_cases r) as [[_ ->]|[[_ ->]|[_ ->]]].
Qed.

Lemma C5_request_url_witness :
  fullmatch RULE_ID_PATTERN "ru_12345678-1234-1234-1234-123456789abc" = true /\
  calls (trace (enable_live_rule (session_failing "timed out")
                  "ru_12345678-1234-1234-1234-123456789abc")) =
    [("POST",
      "https://backstory.googleapis.com/v1/rules/ru_12345678-1234-1234-1234-123456789abc:enableLiveRule")].
Proof.
  split; [reflexivity|].
  exact (C5_request_url (session_failing "timed out")
           "ru_12345678-1234-1234-1234-123456789abc" eq_refl).
Defined.

(** C6. When the body of a success response decodes to
    [{"name": "operations/rulejob_jo_aaaa1111-bbbb-2222-cccc-333344445555"}],
    the function returns [rulejob_jo_aaaa1111-bbbb-2222-cccc-333344445555]. *)
Theorem C6_sample_operation (http_session : AuthorizedSession) (rule_id : string)
    (r : Response) :
  fullmatch RULE_ID_PATTERN rule_id = true ->
  session_request http_session "POST" (endpoint CHRONICLE_API_BASE_URL rule_id)
    = inr r ->
  (status_code r < 400)%Z ->
  json_body r =
    Some (PyDict {[ "name" :=
      PyStr "operations/rulejob_jo_aaaa1111-bbbb-2222-cccc-333344445555" ]}) ->
  result (enable_live_rule http_session rule_id) =
    Return "rulejob_jo_aaaa1111-bbbb-2222-cccc-333344445555".
Proof.
  intros Hm Hreq Hs Hjson.
  rewrite (enable_live_rule_response _ _ r), after_request_success by done.
  by erewrite operation_id_of_named by (done || apply lookup_singleton_eq).
Qed.

Lemma C6_sample_operation_witness :
  result (enable_live_rule
            (session_returning
               (named_response 200 "{}"
                  "operations/rulejob_jo_aaaa1111-bbbb-2222-cccc-333344445555"))
            sample_rule_id) =
    Return "rulejob_jo_aaaa1111-bbbb-2222-cccc-333344445555".
Proof.
  apply (C6_sample_operation _ _
           (named_response 200 "{}"
              "operations/rulejob_jo_aaaa1111-bbbb-2222-cccc-333344445555"));
    [reflexivity | reflexivity | reflexivity | reflexivity].
Defined.

(** C2, as the code has it.  On a success response whose [name] contains a
    [/], the returned string is what lies between the first [/] and the next
    one; it is all that follows the first [/] only when no second [/]
    occurs. *)
Theorem C2_returns_second_segment (http_session : AuthorizedSession)
    (rule_id : string) (r : Response) (entries : gmap string pyvalue)
    (name suffix : string) :
  fullmatch RULE_ID_PATTERN rule_id = true ->
  session_request http_session "POST" (endpoint CHRONICLE_API_BASE_URL rule_id)
    = inr r ->
  (status_code r < 400)%Z ->
  json_body r = Some (PyDict entries) ->
  entries !! "name" = Some (PyStr name) ->
  after "/" name = Some suffix ->
  result (enable_live_rule http_session rule_id) = Return (upto "/" suffix) /\
  (lacks "/" suffix ->
   result (enable_live_rule http_session rule_id) = Return suffix).
Proof.
  intros Hm Hreq Hs Hjson Hname Hafter.
  rewrite (enable_live_rule_response _ _ r), after_request_success by done.
  rewrite (operation_id_of_named r entries name) by done.
  rewrite Hafter. cbn. split; [done|].
  intros Hlacks. by rewrite upto_lacks.
Qed.

Lemma C2_returns_second_segment_witness :
  result (enable_live_rule
            (session_returning (named_response 200 "{}" "operations/a/b"))
            sample_rule_id) = Return "a".
Proof.
  apply (C2_returns_second_segment _ _
           (named_response 200 "{}" "operations/a/b")
           {[ "name" := PyStr "operations/a/b" ]} "operations/a/b" "a/b");
    reflexivity.
Defined.

(** C2 as stated fails: for [name = "operations/a/b"] what follows the first
    [/] is [a/b], and the function returns [a]. *)
Lemma C2_counterexample :
  after "/" "operations/a/b" = Some "a/b" /\
  result (enable_live_rule
            (session_returning (named_response 200 "{}" "operations/a/b"))
            sample_rule_id) = Return "a" /\
  result (enable_live_rule
            (session_returning (named_response 200 "{}" "operations/a/b"))
            sample_rule_id) <> Return "a/b".
Proof. repeat split; [done..|discriminate]. Qed.

(** For an error status that [raise_for_status] knows, the body is printed
    and then the [HTTPError], which carries the response, is raised. *)
Lemma http_error_printed_then_raised (http_session : AuthorizedSession)
    (rule_id : string) (r : Response) :
  fullmatch RULE_ID_PATTERN rule_id = true ->
  session_request http_session "POST" (endpoint CHRONICLE_API_BASE_URL rule_id)
    = inr r ->
  (400 <= status_code r < 600)%Z ->
  enable_live_rule http_session rule_id =
    ([Request "POST" (endpoint CHRONICLE_API_BASE_URL rule_id); Print (text r)],
     Raise (HTTPError r)).
Proof.
  intros Hm Hreq Hs.
  by rewrite (enable_live_rule_response _ _ r), after_request_error.
Qed.

Example not_found_printed_then_raised :
  exists r : Response,
    status_code r = 404%Z /\ text r = not_found_body /\
    enable_live_rule (session_returning r) sample_rule_id =
      ([Request "POST" (endpoint CHRONICLE_API_BASE_URL sample_rule_id);
        Print not_found_body],
       Raise (HTTPError r)).
Proof.
  exists {| status_code := 404; reason := "Not Found";
            text := not_found_body; json_body := None |}.
  repeat split; reflexivity.
Qed.

(** C3 fails at status 600: the body is printed, no [HTTPError] is raised and
    the function returns the piece of [name]. *)
Lemma C3_status_600_returns :
  enable_live_rule
    (session_returning (named_response 600 "boom" "operations/x"))
    sample_rule_id =
    ([Request "POST" (endpoint CHRONICLE_API_BASE_URL sample_rule_id); Print "boom"],
     Return "x").
Proof. reflexivity. Qed.

(** C4, as the code has it.  On a success response whose JSON object has no
    [name] the function fails with [KeyError]; when [name] is a string
    without [/] it fails with [IndexError]. *)
Theorem C4_lookup_errors (http_session : AuthorizedSession) (rule_id : string)
    (r : Response) (entries : gmap string pyvalue) :
  fullmatch RULE_ID_PATTERN rule_id = true ->
  session_request http_session "POST" (endpoint CHRONICLE_API_BASE_URL rule_id)
    = inr r ->
  (status_code r < 400)%Z ->
  json_body r = Some (PyDict entries) ->
  (entries !! "name" = None ->
   result (enable_live_rule http_session rule_id) = Raise (KeyError "name")) /\
  (forall name, entries !! "name" = Some (PyStr name) -> lacks "/" name ->
   result (enable_live_rule http_session rule_id) = Raise IndexError).
Proof.
  intros Hm Hreq Hs Hjson.
  rewrite (enable_live_rule_response _ _ r), after_request_success by done.
  cbn. split.
  - intros Hname. by rewrite (operation_id_of_unnamed r entries).
  - intros name Hname Hlacks.
    rewrite (operation_id_of_named r entries name) by done.
    by apply after_None in Hlacks as ->.
Qed.

Lemma C4_lookup_errors_witness :
  result (enable_live_rule
            (session_returning (named_response 200 "{}" "rulejob_jo_xyz"))
            sample_rule_id) = Raise IndexError.
Proof.
  apply (proj2 (C4_lookup_errors
                  (session_returning (named_response 200 "{}" "rulejob_jo_xyz"))
                  sample_rule_id (named_response 200 "{}" "rulejob_jo_xyz")
                  {[ "name" := PyStr "rulejob_jo_xyz" ]}
                  eq_refl eq_refl eq_refl eq_refl) "rulejob_jo_xyz");
    reflexivity.
Defined.

(** C4 as stated fails: for the body [{"name": "rulejob_jo_xyz"}] the failure
    is Python's [IndexError], not an error of the MalformedResponse kind. *)
Lemma C4_counterexample :
  result (enable_live_rule
            (session_returning (named_response 200 "{}" "rulejob_jo_xyz"))
            sample_rule_id) = Raise IndexError /\
  kind_of IndexError <> MalformedResponse.
Proof. split; [done|discriminate]. Qed.

(** C7. The events of a run are: nothing for an invalid identifier; for a
    valid one the single POST, followed by one print of the body exactly when
    a response came back with a status of 400 or more.  So a valid
    identifier costs one request, an invalid one none, and at most one line
    is printed. *)
Theorem C7_effects (http_session : AuthorizedSession) (rule_id : string) :
  trace (enable_live_rule http_session rule_id) =
    (if fullmatch RULE_ID_PATTERN rule_id then
       Request "POST" (endpoint CHRONICLE_API_BASE_URL rule_id) ::
       match session_request http_session "POST"
               (endpoint CHRONICLE_API_BASE_URL rule_id) with
       | inr r => if (400 <=? status_code r)%Z then [Print (text r)] else []
       | inl _ => []
       end
     else []) /\
  length (calls (trace (enable_live_rule http_session rule_id))) =
    (if fullmatch RULE_ID_PATTERN rule_id then 1 else 0) /\
  length (prints (trace (enable_live_rule http_session rule_id))) <= 1.
Proof.
  destruct (fullmatch RULE_ID_PATTERN rule_id) eqn:Hm.
  - destruct (session_request http_session "POST"
                (endpoint CHRONICLE_API_BASE_URL rule_id)) as [detail|r] eqn:Hreq.
    + rewrite (enable_live_rule_transport _ _ detail) by done. cbn. auto.
    + rewrite (enable_live_rule_response _ _ r) by done.
      destruct (after_request_cases r) as [[Hs ->]|[[Hs ->]|[Hs ->]]];
        destruct (Z.leb_spec 400 (status_code r)); try lia; cbn; auto.
  - rewrite enable_live_rule_invalid by done. cbn. auto.
Qed.

(** C8. An [HTTPError] comes out only for a status from 400 up to, and not
    including, 600.  From 600 on the body is still printed, nothing is raised
    for the status, and the run ends as the return expression does. *)
Theorem C8_http_error_range (http_session : AuthorizedSession) (rule_id : string) :
  (forall r', result (enable_live_rule http_session rule_id) = Raise (HTTPError r') ->
              (400 <= status_code r' < 600)%Z) /\
  (forall r,
     fullmatch RULE_ID_PATTERN rule_id = true ->
     session_request http_session "POST" (endpoint CHRONICLE_API_BASE_URL rule_id)
       = inr r ->
     (600 <= status_code r)%Z ->
     enable_live_rule http_session rule_id =
       ([Request "POST" (endpoint CHRONICLE_API_BASE_URL rule_id); Print (text r)],
        result (operation_id_of r)) /\
     forall r', result (enable_live_rule http_session rule_id) <> Raise (HTTPError r')).
Proof.
  split.
  - intros r'. destruct (fullmatch RULE_ID_PATTERN rule_id) eqn:Hm.
    + destruct (session_request http_session "POST"
                  (endpoint CHRONICLE_API_BASE_URL rule_id)) as [detail|r] eqn:Hreq.
      * by rewrite (enable_live_rule_transport _ _ detail).
      * rewrite (enable_live_rule_response _ _ r) by done. cbn.
        intros [[[= ->] Hs]|?]%after_request_raises; done.
    + by rewrite enable_live_rule_invalid.
  - intros r Hm Hreq Hs.
    rewrite (enable_live_rule_response _ _ r), after_request_beyond by done.
    split; [done|]. cbn. intros r' He%operation_id_of_raises. done.
Qed.

Lemma C8_http_error_range_witness :
  enable_live_rule
    (session_returning (named_response 700 "out of range" "operations/job"))
    sample_rule_id =
    ([Request "POST" (endpoint CHRONICLE_API_BASE_URL sample_rule_id);
      Print "out of range"],
     Return "job").
Proof.
  exact (proj1 (proj2 (C8_http_error_range
                         (session_returning
                            (named_response 700 "out of range" "operations/job"))
                         sample_rule_id)
                  (named_response 700 "out of range" "operations/job")
                  eq_refl eq_refl ltac:(discriminate))).
Defined.

(** C9, as the code has it.  The piece of [name] at index 1 is returned as it
    is, whatever its form: [x] for the name [/x/], the empty string for the
    name [x/]. *)
Theorem C9_second_piece_unchecked (http_session : AuthorizedSession)
    (rule_id : string) (r : Response) (entries : gmap string pyvalue)
    (name first second : string) (others : list string) :
  fullmatch RULE_ID_PATTERN rule_id = true ->
  session_request http_session "POST" (endpoint CHRONICLE_API_BASE_URL rule_id)
    = inr r ->
  (status_code r < 400)%Z ->
  json_body r = Some (PyDict entries) ->
  entries !! "name" = Some (PyStr name) ->
  str_split "/" name = first :: second :: others ->
  result (enable_live_rule http_session rule_id) = Return second.
Proof.
  intros Hm Hreq Hs Hjson Hname Hsplit.
  rewrite (enable_live_rule_response _ _ r), after_request_success by done.
  rewrite (operation_id_of_pieces r entries name) by done.
  by rewrite Hsplit.
Qed.

Lemma C9_second_piece_unchecked_witness :
  result (enable_live_rule (session_returning (named_response 200 "{}" "x/"))
            sample_rule_id) = Return "" /\
  ~ operation_id_shape "" /\
  result (enable_live_rule (session_returning (named_response 200 "{}" "/x/"))
            sample_rule_id) = Return "x".
Proof.
  split; [|split].
  - apply (C9_second_piece_unchecked _ _ (named_response 200 "{}" "x/")
             {[ "name" := PyStr "x/" ]} "x/" "x" "" []); reflexivity.
  - intros (u & _ & Hu). discriminate Hu.
  - apply (C9_second_piece_unchecked _ _ (named_response 200 "{}" "/x/")
             {[ "name" := PyStr "/x/" ]} "/x/" "" "x" [""]); reflexivity.
Defined.

(** C9 as stated fails in its example: for the name [/x/] the function
    returns [x], not the empty string. *)
Lemma C9_counterexample :
  str_split "/" "/x/" = [""; "x"; ""] /\
  result (enable_live_rule (session_returning (named_response 200 "{}" "/x/"))
            sample_rule_id) = Return "x" /\
  result (enable_live_rule (session_returning (named_response 200 "{}" "/x/"))
            sample_rule_id) <> Return "".
Proof. repeat split; [done..|discriminate]. Qed.

(** ** Determinism *)

Lemma same_ending_refl {A : Type} (o : outcome A) : same_ending o o.
Proof. by destruct o. Qed.

Lemma operation_id_of_json (r1 r2 : Response) :
  json_body r1 = json_body r2 -> operation_id_of r1 = operation_id_of r2.
Proof. intros H. unfold operation_id_of, json. by rewrite H. Qed.

(** C10. Two runs on the same identifier whose responses agree on the status
    code, the text and the decoded body emit the same events and end alike:
    the same returned string or an exception of the same class.  Nothing else
    of the session or of the response matters. *)
Theorem C10_deterministic (session1 session2 : AuthorizedSession)
    (rule_id : string) (r1 r2 : Response) :
  session_request session1 "POST" (endpoint CHRONICLE_API_BASE_URL rule_id)
    = inr r1 ->
  session_request session2 "POST" (endpoint CHRONICLE_API_BASE_URL rule_id)
    = inr r2 ->
  status_code r1 = status_code r2 ->
  text r1 = text r2 ->
  json_body r1 = json_body r2 ->
  trace (enable_live_rule session1 rule_id) = trace (enable_live_rule session2 rule_id) /\
  same_ending (result (enable_live_rule session1 rule_id))
              (result (enable_live_rule session2 rule_id)).
Proof.
  intros Hreq1 Hreq2 Hstatus Htext Hjson.
  destruct (fullmatch RULE_ID_PATTERN rule_id) eqn:Hm.
  - rewrite (enable_live_rule_response _ _ r1), (enable_live_rule_response _ _ r2)
      by done.
    apply operation_id_of_json in Hjson.
    destruct (after_request_cases r1) as [[Hs1 ->]|[[Hs1 ->]|[Hs1 ->]]];
      destruct (after_request_cases r2) as [[Hs2 ->]|[[Hs2 ->]|[Hs2 ->]]];
      try lia; cbn; rewrite ?Htext, ?Hjson; split; try done;
      apply same_ending_refl.
  - rewrite !enable_live_rule_invalid by done. by split.
Qed.

Lemma C10_deterministic_witness :
  same_ending
    (result (enable_live_rule
               (session_returning
                  {| status_code := 404; reason := "Not Found";
                     text := "gone"; json_body := None |})
               sample_rule_id))
    (result (enable_live_rule
               (session_returning
                  {| status_code := 404; reason := "";
                     text := "gone"; json_body := None |})
               sample_rule_id)).
Proof.
  exact (proj2 (C10_deterministic
                  (session_returning
                     {| status_code := 404; reason := "Not Found";
                        text := "gone"; json_body := None |})
                  (session_returning
                     {| status_code := 404; reason := "";
                        text := "gone"; json_body := None |})
                  sample_rule_id _ _ eq_refl eq_refl eq_refl eq_refl eq_refl)).
Defined.

(** * Further properties of the code *)

(** ** Helpers *)

Lemma after_request_outside (r : Response) :
  (status_code r < 400 \/ 600 <= status_code r)%Z ->
  result (after_request r) = result (operation_id_of r).
Proof.
  intros Hs.
  destruct (after_request_cases r) as [[_ ->]|[[? _]|[_ ->]]]; [done|lia|done].
Qed.

(** What a returned value says about the body it came from. *)
Lemma operation_id_of_returns (r : Response) (op : string) :
  result (operation_id_of r) = Return op ->
  exists entries name suffix,
    json_body r = Some (PyDict entries) /\
    entries !! "name" = Some (PyStr name) /\
    after "/" name = Some suffix /\
    op = upto "/" suffix.
Proof.
  destruct (json_body r) as [body|] eqn:Hjson.
  2:{ unfold operation_id_of, json. by rewrite Hjson. }
  destruct body as [| | | |?|entries];
    try (unfold operation_id_of, json; by rewrite Hjson).
  destruct (entries !! "name") as [v|] eqn:Hname.
  2:{ by rewrite (operation_id_of_unnamed r entries). }
  destruct v as [| | |name|?|?];
    try (unfold operation_id_of, json; rewrite Hjson; cbn; by rewrite Hname).
  rewrite (operation_id_of_named r entries name) by done. cbn.
  destruct (after "/" name) as [suffix|] eqn:Hafter; [|done].
  intros [= <-]. by exists entries, name, suffix.
Qed.

Lemma upto_lacks_sep (sep : ascii) (s : string) : lacks sep (upto sep s).
Proof.
  unfold lacks. induction s as [|c t IH]; [done|].
  cbn [upto]. destruct (Ascii.eqb c sep) eqn:Hc; [done|].
  cbn [list_ascii_of_string forallb]. by rewrite Hc, IH.
Qed.

(** ** Failures of the transport and of the body *)

(** X1. When the session fails to deliver a response for a valid identifier,
    that failure is what the function raises: one request was issued, nothing
    was printed and nothing was tried again. *)
Theorem transport_failure_propagates (http_session : AuthorizedSession)
    (rule_id detail : string) :
  fullmatch RULE_ID_PATTERN rule_id = true ->
  session_request http_session "POST"
    (CHRONICLE_API_BASE_URL +:+ "/v1/rules/" +:+ rule_id +:+ ":enableLiveRule")
    = inl detail ->
  enable_live_rule http_session rule_id =
    ([Request "POST"
        (CHRONICLE_API_BASE_URL +:+ "/v1/rules/" +:+ rule_id +:+ ":enableLiveRule")],
     Raise (TransportError detail)).
Proof. intros Hm Hreq. by apply enable_live_rule_transport. Qed.

Lemma transport_failure_propagates_witness :
  enable_live_rule (session_failing "connection reset") sample_rule_id =
    ([Request "POST"
        "https://backstory.googleapis.com/v1/rules/ru_12345678-1234-1234-1234-123456789abc:enableLiveRule"],
     Raise (TransportError "connection reset")).
Proof.
  exact (transport_failure_propagates (session_failing "connection reset")
           sample_rule_id "connection reset" eq_refl eq_refl).
Defined.

(** X2. A response outside the error range whose body does not decode makes
    the function fail with the decoder's error. *)
Theorem undecodable_body_raises (http_session : AuthorizedSession)
    (rule_id : string) (r : Response) :
  fullmatch RULE_ID_PATTERN rule_id = true ->
  session_request http_session "POST" (endpoint CHRONICLE_API_BASE_URL rule_id)
    = inr r ->
  (status_code r < 400 \/ 600 <= status_code r)%Z ->
  json_body r = None ->
  result (enable_live_rule http_session rule_id) = Raise JSONDecodeError.
Proof.
  intros Hm Hreq Hs Hjson.
  rewrite (enable_live_rule_response _ _ r) by done. cbn.
  rewrite after_request_outside by done.
  unfold operation_id_of, json. by rewrite Hjson.
Qed.

Lemma undecodable_body_raises_witness :
  result (enable_live_rule
            (session_returning
               {| status_code := 200; reason := "OK";
                  text := "<html>"; json_body := None |})
            sample_rule_id) = Raise JSONDecodeError.
Proof.
  apply (undecodable_body_raises _ _
           {| status_code := 200; reason := "OK";
              text := "<html>"; json_body := None |});
    [reflexivity | reflexivity | left; reflexivity | reflexivity].
Defined.

(** X3. When the body decodes to anything but an object (a list, a string, a
    number, a boolean, null), subscripting it with ["name"] is a
    [TypeError]. *)
Theorem non_object_body_raises (http_session : AuthorizedSession)
    (rule_id : string) (r : Response) (body : pyvalue) :
  fullmatch RULE_ID_PATTERN rule_id = true ->
  session_request http_session "POST" (endpoint CHRONICLE_API_BASE_URL rule_id)
    = inr r ->
  (status_code r < 400 \/ 600 <= status_code r)%Z ->
  json_body r = Some body ->
  (forall entries, body <> PyDict entries) ->
  result (enable_live_rule http_session rule_id) = Raise TypeError.
Proof.
  intros Hm Hreq Hs Hjson Hbody.
  rewrite (enable_live_rule_response _ _ r) by done. cbn.
  rewrite after_request_outside by done.
  unfold operation_id_of, json. rewrite Hjson.
  destruct body as [| | | |?|entries]; try done.
  by destruct (Hbody entries).
Qed.

Lemma non_object_body_raises_witness :
  result (enable_live_rule
            (session_returning
               {| status_code := 200; reason := "OK"; text := "[]";
                  json_body := Some (PyList []) |})
            sample_rule_id) = Raise TypeError.
Proof.
  apply (non_object_body_raises _ _
           {| status_code := 200; reason := "OK"; text := "[]";
              json_body := Some (PyList []) |} (PyList []));
    [reflexivity | reflexivity | left; reflexivity | reflexivity | discriminate].
Defined.

(** X4. When the object has a [name] that is not a string, the call of
    [split] on it is an [AttributeError]. *)
Theorem non_string_name_raises (http_session : AuthorizedSession)
    (rule_id : string) (r : Response) (entries : gmap string pyvalue)
    (v : pyvalue) :
  fullmatch RULE_ID_PATTERN rule_id = true ->
  session_request http_session "POST" (endpoint CHRONICLE_API_BASE_URL rule_id)
    = inr r ->
  (status_code r < 400 \/ 600 <= status_code r)%Z ->
  json_body r = Some (PyDict entries) ->
  entries !! "name" = Some v ->
  (forall s, v <> PyStr s) ->
  result (enable_live_rule http_session rule_id) = Raise (AttributeError "split").
Proof.
  intros Hm Hreq Hs Hjson Hname Hv.
  rewrite (enable_live_rule_response _ _ r) by done. cbn.
  rewrite after_request_outside by done.
  unfold operation_id_of, json. rewrite Hjson. cbn. rewrite Hname.
  destruct v as [| | |s| |]; try done.
  by destruct (Hv s).
Qed.

Lemma non_string_name_raises_witness :
  result (enable_live_rule
            (session_returning
               {| status_code := 200; reason := "OK"; text := "{}";
                  json_body := Some (PyDict {[ "name" := PyNone ]}) |})
            sample_rule_id) = Raise (AttributeError "split").
Proof.
  apply (non_string_name_raises _ _
           {| status_code := 200; reason := "OK"; text := "{}";
              json_body := Some (PyDict {[ "name" := PyNone ]}) |}
           {[ "name" := PyNone ]} PyNone);
    [reflexivity | reflexivity | left; reflexivity | reflexivity | reflexivity
    | discriminate].
Defined.

(** ** What a normal return implies *)

(** X5. The function returns only when the identifier matched, the session
    delivered a response whose status lies outside 400..599, the body decoded
    to an object and its [name] is a string with a [/] in it; the value is
    then what stands between that [/] and the next one.  One request was
    issued on the way. *)
Theorem return_only_from_named_response (http_session : AuthorizedSession)
    (rule_id op : string) :
  result (enable_live_rule http_session rule_id) = Return op ->
  fullmatch RULE_ID_PATTERN rule_id = true /\
  calls (trace (enable_live_rule http_session rule_id)) =
    [("POST", endpoint CHRONICLE_API_BASE_URL rule_id)] /\
  exists r entries name suffix,
    session_request http_session "POST" (endpoint CHRONICLE_API_BASE_URL rule_id)
      = inr r /\
    (status_code r < 400 \/ 600 <= status_code r)%Z /\
    json_body r = Some (PyDict entries) /\
    entries !! "name" = Some (PyStr name) /\
    after "/" name = Some suffix /\
    op = upto "/" suffix.
Proof.
  destruct (fullmatch RULE_ID_PATTERN rule_id) eqn:Hm.
  2:{ by rewrite enable_live_rule_invalid. }
  destruct (session_request http_session "POST"
              (endpoint CHRONICLE_API_BASE_URL rule_id)) as [detail|r] eqn:Hreq.
  { by rewrite (enable_live_rule_transport _ _ detail). }
  rewrite (enable_live_rule_response _ _ r) by done. cbn.
  destruct (after_request_cases r) as [[Hs ->]|[[Hs ->]|[Hs ->]]]; cbn;
    [|done|].
  - intros (entries & name & suffix & ? & ? & ? & ?)%operation_id_of_returns.
    split; [done|]. split; [done|].
    exists r, entries, name, suffix. repeat split; auto.
  - intros (entries & name & suffix & ? & ? & ? & ?)%operation_id_of_returns.
    split; [done|]. split; [done|].
    exists r, entries, name, suffix. repeat split; auto.
Qed.

Lemma return_only_from_named_response_witness :
  fullmatch RULE_ID_PATTERN sample_rule_id = true /\
  exists r entries name suffix,
    session_request
      (session_returning (named_response 200 "{}" "operations/job"))
      "POST" (endpoint CHRONICLE_API_BASE_URL sample_rule_id) = inr r /\
    (status_code r < 400 \/ 600 <= status_code r)%Z /\
    json_body r = Some (PyDict entries) /\
    entries !! "name" = Some (PyStr name) /\
    after "/" name = Some suffix /\
    "job" = upto "/" suffix.
Proof.
  pose proof (return_only_from_named_response
                (session_returning (named_response 200 "{}" "operations/job"))
                sample_rule_id "job" eq_refl) as (Hm & _ & H).
  exact (conj Hm H).
Defined.

(** X6. A value the function returns never contains a [/]. *)
Theorem returned_value_has_no_slash (http_session : AuthorizedSession)
    (rule_id op : string) :
  result (enable_live_rule http_session rule_id) = Return op ->
  lacks "/" op.
Proof.
  destruct (fullmatch RULE_ID_PATTERN rule_id) eqn:Hm.
  2:{ by rewrite enable_live_rule_invalid. }
  destruct (session_request http_session "POST"
              (endpoint CHRONICLE_API_BASE_URL rule_id)) as [detail|r] eqn:Hreq.
  { by rewrite (enable_live_rule_transport _ _ detail). }
  rewrite (enable_live_rule_response _ _ r) by done. cbn.
  destruct (after_request_cases r) as [[_ ->]|[[_ ->]|[_ ->]]]; cbn; [|done|];
    intros (_ & _ & suffix & _ & _ & _ & ->)%operation_id_of_returns;
    apply upto_lacks_sep.
Qed.

Lemma returned_value_has_no_slash_witness : lacks "/" "a".
Proof.
  exact (returned_value_has_no_slash
           (session_returning (named_response 200 "{}" "operations/a/b"))
           sample_rule_id "a" eq_refl).
Defined.

(** X7. For a status from 400 to 599 the body is printed and the
    [HTTPError] raised whatever the body is: it is never decoded, so a
    well-formed [name] in an error response is not returned. *)
Theorem http_error_before_body (http_session : AuthorizedSession)
    (rule_id : string) (r : Response) :
  fullmatch RULE_ID_PATTERN rule_id = true ->
  session_request http_session "POST" (endpoint CHRONICLE_API_BASE_URL rule_id)
    = inr r ->
  (400 <= status_code r < 600)%Z ->
  trace (enable_live_rule http_session rule_id) =
    [Request "POST" (endpoint CHRONICLE_API_BASE_URL rule_id); Print (text r)] /\
  result (enable_live_rule http_session rule_id) = Raise (HTTPError r) /\
  forall op, result (enable_live_rule http_session rule_id) <> Return op.
Proof.
  intros Hm Hreq Hs.
  rewrite (enable_live_rule_response _ _ r), after_request_error by done.
  by repeat split.
Qed.

Lemma http_error_before_body_witness :
  result (enable_live_rule
            (session_returning (named_response 503 "unavailable" "operations/job"))
            sample_rule_id) =
    Raise (HTTPError (named_response 503 "unavailable" "operations/job")).
Proof.
  exact (proj1 (proj2 (http_error_before_body
                         (session_returning
                            (named_response 503 "unavailable" "operations/job"))
                         sample_rule_id
                         (named_response 503 "unavailable" "operations/job")
                         eq_refl eq_refl ltac:(cbn; lia)))).
Defined.

(** ** What the pattern lets through *)

Lemma forallb_weaken {A : Type} (p q : A -> bool) (l : list A) :
  (forall x, p x = true -> q x = true) ->
  forallb p l = true -> forallb q l = true.
Proof.
  intros Hpq. induction l as [|x l IH]; [done|].
  cbn. intros [Hx Hl]%andb_true_iff. by rewrite (Hpq x Hx), IH.
Qed.

Lemma is_hex_rule_id_char (c : ascii) :
  is_hex c = true -> is_rule_id_char c = true.
Proof. unfold is_rule_id_char. by intros ->. Qed.

Lemma rule_id_char_not_slash (c : ascii) :
  is_rule_id_char c = true -> negb (Ascii.eqb c "/") = true.
Proof. by destruct c as [[] [] [] [] [] [] [] []]. Qed.

Lemma accepted_length (s : string) :
  fullmatch RULE_ID_PATTERN s = true -> String.length s = 39.
Proof.
  intros (u & (g1 & g2 & g3 & g4 & g5 & [H1 _] & [H2 _] & [H3 _] & [H4 _] &
               [H5 _] & ->) & ->)%fullmatch_rule_id.
  rewrite !length_append. cbn [String.length]. lia.
Qed.

Lemma length_zero_empty (s : string) : String.length s = 0 -> s = "".
Proof. by destruct s. Qed.

(** X8. Every identifier that passes the check is 39 characters long and
    made of hexadecimal digits and the characters of [ru_-] only; so it holds
    no [/], and the path of the URL is not extended by it. *)
Theorem accepted_rule_id_is_plain (s : string) :
  fullmatch RULE_ID_PATTERN s = true ->
  String.length s = 39 /\
  forallb is_rule_id_char (list_ascii_of_string s) = true /\
  lacks "/" s.
Proof.
  intros Hm. split; [by apply accepted_length|].
  assert (forallb is_rule_id_char (list_ascii_of_string s) = true) as Hchars.
  { apply fullmatch_rule_id in Hm
      as (u & (g1 & g2 & g3 & g4 & g5 & [_ H1] & [_ H2] & [_ H3] & [_ H4] &
               [_ H5] & ->) & ->).
    apply (forallb_weaken _ _ _ is_hex_rule_id_char) in H1, H2, H3, H4, H5.
    rewrite !list_ascii_append, !forallb_app, H1, H2, H3, H4, H5.
    reflexivity. }
  split; [done|].
  unfold lacks. revert Hchars. apply forallb_weaken, rule_id_char_not_slash.
Qed.

Lemma accepted_rule_id_is_plain_witness :
  String.length sample_rule_id = 39 /\
  forallb is_rule_id_char (list_ascii_of_string sample_rule_id) = true /\
  lacks "/" sample_rule_id.
Proof. exact (accepted_rule_id_is_plain sample_rule_id eq_refl). Defined.

(** X9. The check is anchored at both ends: an accepted identifier with
    anything put before or after it is rejected. *)
Theorem padded_rule_id_rejected (before s behind : string) :
  fullmatch RULE_ID_PATTERN s = true ->
  before <> "" \/ behind <> "" ->
  fullmatch RULE_ID_PATTERN (before +:+ s +:+ behind) = false.
Proof.
  intros Hs Hpad.
  destruct (fullmatch RULE_ID_PATTERN (before +:+ s +:+ behind)) eqn:Hm; [|done].
  apply accepted_length in Hs, Hm. rewrite !length_append, Hs in Hm.
  destruct Hpad as [Hne|Hne]; destruct Hne; apply length_zero_empty; lia.
Qed.

Lemma padded_rule_id_rejected_witness :
  fullmatch RULE_ID_PATTERN
    ("x" +:+ "ru_12345678-1234-1234-1234-123456789abc" +:+ String "010" "")
    = false.
Proof.
  exact (padded_rule_id_rejected "x" "ru_12345678-1234-1234-1234-123456789abc"
           (String "010" "") eq_refl ltac:(left; discriminate)).
Defined.

(** ** Splitting loses nothing *)

Lemma str_join_cons (sep c : ascii) (piece : string) (pieces : list string) :
  str_join sep (String c piece :: pieces) = String c (str_join sep (piece :: pieces)).
Proof. by destruct pieces. Qed.

(** X10. The pieces [split] produces hold no separator, there is one more of
    them than there are separators in the string, and joined with the
    separator they give the string back. *)
Theorem str_split_join (sep : ascii) (s : string) :
  str_join sep (str_split sep s) = s /\
  Forall (lacks sep) (str_split sep s) /\
  length (str_split sep s) = S (occurrences sep s).
Proof.
  induction s as [|c t (IHjoin & IHall & IHlen)]; [by repeat constructor|].
  cbn [str_split occurrences].
  destruct (str_split sep t) as [|piece pieces] eqn:Hsplit; [done|].
  destruct (Ascii.eqb_spec c sep) as [->|Hne].
  - split; [|split].
    + change (str_join sep ("" :: piece :: pieces))
        with ("" +:+ String sep (str_join sep (piece :: pieces))).
      by rewrite IHjoin.
    + by constructor.
    + cbn. cbn in IHlen. lia.
  - split; [|split].
    + by rewrite str_join_cons, IHjoin.
    + inversion IHall as [|?? Hpiece Hrest]; subst. constructor; [|done].
      unfold lacks in *. cbn [list_ascii_of_string forallb].
      apply Ascii.eqb_neq in Hne. by rewrite Hne, Hpiece.
    + cbn. cbn in IHlen. lia.
Qed.

(** ** The script *)

Lemma prints_at_most_one (http_session : AuthorizedSession) (rule_id : string) :
  length (prints (trace (enable_live_rule http_session rule_id))) <= 1.
Proof.
  destruct (fullmatch RULE_ID_PATTERN rule_id) eqn:Hm.
  - destruct (session_request http_session "POST"
                (endpoint CHRONICLE_API_BASE_URL rule_id)) as [detail|r] eqn:Hreq.
    + rewrite (enable_live_rule_transport _ _ detail) by done. cbn. lia.
    + rewrite (enable_live_rule_response _ _ r) by done.
      destruct (after_request_cases r) as [[_ ->]|[[_ ->]|[_ ->]]]; cbn; lia.
  - rewrite enable_live_rule_invalid by done. cbn. lia.
Qed.

Lemma prints_app (t1 t2 : list event) :
  prints (t1 ++ t2)%list = (prints t1 ++ prints t2)%list.
Proof. apply omap_app. Qed.

Lemma calls_app (t1 t2 : list event) :
  calls (t1 ++ t2)%list = (calls t1 ++ calls t2)%list.
Proof. apply omap_app. Qed.

(** X11. When the script ends normally, the operation identifier is the last
    line it printed, after the one POST and at most one line of error body;
    when it fails, it fails as [enable_live_rule] did, and no identifier is
    printed. *)
Theorem main_prints_operation_id_last (session : AuthorizedSession)
    (rule_id : string) :
  (result (main session rule_id) = Return tt ->
   exists op lines,
     result (enable_live_rule session rule_id) = Return op /\
     prints (trace (main session rule_id)) = (lines ++ [op])%list /\
     length lines <= 1 /\
     calls (trace (main session rule_id)) =
       [("POST", endpoint CHRONICLE_API_BASE_URL rule_id)]) /\
  (forall e, result (main session rule_id) = Raise e ->
     result (enable_live_rule session rule_id) = Raise e /\
     trace (main session rule_id) = trace (enable_live_rule session rule_id)).
Proof.
  pose proof (prints_at_most_one session rule_id) as Hprints.
  unfold main, mbind, M_bind, print.
  destruct (enable_live_rule session rule_id) as [t [op|e]] eqn:Hrun; cbn in *.
  - split; [|done]. intros _. exists op, (prints t).
    rewrite prints_app, calls_app. cbn. rewrite app_nil_r.
    repeat split; [done|].
    destruct (fullmatch RULE_ID_PATTERN rule_id) eqn:Hm.
    2:{ by rewrite enable_live_rule_invalid in Hrun. }
    destruct (session_request session "POST"
                (endpoint CHRONICLE_API_BASE_URL rule_id)) as [detail|r] eqn:Hreq.
    { by rewrite (enable_live_rule_transport _ _ detail) in Hrun. }
    rewrite (enable_live_rule_response _ _ r) in Hrun by done.
    injection Hrun as <- _.
    by destruct (after_request_cases r) as [[_ ->]|[[_ ->]|[_ ->]]].
  - split; [done|]. by intros e' [= <-].
Qed.

Lemma main_prints_operation_id_last_witness :
  exists op lines,
    result (enable_live_rule
              (session_returning (named_response 700 "late" "operations/job"))
              sample_rule_id) = Return op /\
    prints (trace (main
                     (session_returning (named_response 700 "late" "operations/job"))
                     sample_rule_id)) = (lines ++ [op])%list /\
    length lines <= 1 /\
    calls (trace (main
                    (session_returning (named_response 700 "late" "operations/job"))
                    sample_rule_id)) =
      [("POST", endpoint CHRONICLE_API_BASE_URL sample_rule_id)].
Proof.
  exact (proj1 (main_prints_operation_id_last
                  (session_returning (named_response 700 "late" "operations/job"))
                  sample_rule_id) eq_refl).
Defined.
